(** * The database setup runner (scripts/run_database_setup.py)

    A shallow embedding of the script: one linear sequence of I/O steps
    (credential check, client construction, two file reads, two RPC
    executions, a verification step, a summary banner), written in a small
    monad that threads the trace of observable events and carries the two
    ways a Python statement can stop the sequence: a raised exception and
    [exit(n)].

    Strings are byte strings (the UTF-8 encoding of the Python text);
    bytewise order on UTF-8 coincides with Python's code-point order. *)

From Stdlib Require Import Ascii.
From stdpp Require Import base option list strings gmap sorting pretty.

(** ** Python values the script touches *)

(** An exception object: its class name and what [str(e)] returns. Only
    subclasses of [Exception] are represented; these are the ones an
    [except Exception] clause catches. *)
Record pyexn := PyExn { exn_class : string; exn_str : string }.

(** A returned row, a dict from column names to values; the columns the
    script reads are text. *)
Abbreviation row := (gmap string string).

(** What [.execute()] returns: the rows and the optional exact count. *)
Record api_response := ApiResponse {
  data : list row;
  count : option Z
}.

(** The requests the client sends when [.execute()] is called. *)
Inductive request :=
| Rpc (fn : string) (params : list (string * string))
| Select (table : string) (columns : string) (count_mode : option string).

(** The handle built by [create_client]. *)
Record client := Client { supabase_url : string; supabase_key : string }.

(** ** Observable events *)

Inductive event :=
| Printed (line : string)
| CreateClient (url key : string)
| OpenRead (path : string)
| Execute (c : client) (r : request).

(** ** The world the script runs in *)

Record world := World {
  environ : gmap string string;
  read_text : string → pyexn + string;
  service : client → list request → request → pyexn + api_response
}.

(** ** Outcomes and the monad *)

Inductive outcome (A : Type) :=
| Ret (a : A)
| Raise (e : pyexn)
| SystemExit (code : Z).
Arguments Ret {A} a.
Arguments Raise {A} e.
Arguments SystemExit {A} code.

Definition M (A : Type) : Type := world → list event → outcome A * list event.

#[global] Instance M_ret : MRet M := λ A a _ t, (Ret a, t).
#[global] Instance M_bind : MBind M := λ A B f m w t,
  match m w t with
  | (Ret a, t') => f a w t'
  | (Raise e, t') => (Raise e, t')
  | (SystemExit c, t') => (SystemExit c, t')
  end.

Definition emit (ev : event) : M unit := λ _ t, (Ret tt, t ++ [ev]).
Definition raise {A} (e : pyexn) : M A := λ _ t, (Raise e, t).
Definition exit {A} (code : Z) : M A := λ _ t, (SystemExit code, t).
Definition ask : M world := λ w t, (Ret w, t).
Definition history : M (list event) := λ _ t, (Ret t, t).

(** [try: body except Exception as e: handler e] *)
Definition try_except {A} (body : M A) (handler : pyexn → M A) : M A := λ w t,
  match body w t with
  | (Raise e, t') => handler e w t'
  | r => r
  end.

Definition of_result {A} (r : pyexn + A) : M A :=
  match r with inl e => raise e | inr a => mret a end.

(** ** Builtins *)

Definition nl : string := String "010"%char "".

(** [s * n] *)
Fixpoint str_mul (s : string) (n : nat) : string :=
  match n with O => "" | S n => s +:+ str_mul s n end.

(** [str(x)] for an [Optional[int]] *)
Definition str_count (c : option Z) : string :=
  match c with None => "None" | Some n => pretty n end.

(** [not x] for the result of [os.environ.get] *)
Definition py_not (x : option string) : bool :=
  match x with
  | None => true
  | Some s => bool_decide (s = "")
  end.

Definition print (s : string) : M unit := emit (Printed s).

Definition os_environ_get (name : string) : M (option string) :=
  w ← ask; mret (environ w !! name).

(** [create_client(url, key)]: builds the handle; no request is sent. *)
Definition create_client (url key : string) : M client :=
  emit (CreateClient url key);; mret (Client url key).

(** [with open(path, 'r') as f: f.read()] *)
Definition open_read (path : string) : M string :=
  emit (OpenRead path);; w ← ask; of_result (read_text w path).

Definition requests_of (t : list event) : list request :=
  omap (λ ev, match ev with Execute _ r => Some r | _ => None end) t.

(** [supabase.<builder>.execute()] *)
Definition execute (c : client) (r : request) : M api_response :=
  w ← ask; t ← history;
  emit (Execute c r);; of_result (service w c (requests_of t) r).

(** [row['symbol']] *)
Definition getitem (r : row) (key : string) : pyexn + string :=
  match r !! key with
  | Some v => inr v
  | None => inl (PyExn "KeyError" ("'" +:+ key +:+ "'"))
  end.

(** [set(row[key] for row in rows)]: the generator stops at the first
    failing subscript. *)
Fixpoint set_of_column (key : string) (rows : list row) : pyexn + gset string :=
  match rows with
  | [] => inr ∅
  | r :: rows =>
      match getitem r key with
      | inl e => inl e
      | inr v =>
          match set_of_column key rows with
          | inl e => inl e
          | inr s => inr ({[v]} ∪ s)
          end
      end
  end.

(** [sorted(s)] for a set of strings *)
Definition sorted (s : gset string) : list string :=
  merge_sort String.le (elements s).

(** [sep.join(l)] *)
Definition join (sep : string) (l : list string) : string := String.concat sep l.

(** ** The script *)

Definition SCHEMA_PATH : string := "scripts/001_reset_and_create_enhanced_schema.sql".
Definition SEED_PATH : string := "scripts/002_seed_sample_data.sql".

(** Lines 5-11: read the two variables, stop with [exit(1)] when one of
    them is unset or empty. On the other branch both are strings. *)
Definition credentials : M (string * string) :=
  SUPABASE_URL ← os_environ_get "SUPABASE_URL";
  SUPABASE_SERVICE_ROLE_KEY ← os_environ_get "SUPABASE_SERVICE_ROLE_KEY";
  if py_not SUPABASE_URL || py_not SUPABASE_SERVICE_ROLE_KEY then
    print "ERROR: Missing Supabase credentials!";;
    print "Required environment variables: SUPABASE_URL, SUPABASE_SERVICE_ROLE_KEY";;
    exit 1
  else
    mret (default "" SUPABASE_URL, default "" SUPABASE_SERVICE_ROLE_KEY).

(** Lines 16-29 *)
Definition load_scripts : M (string * string) :=
  print (str_mul "=" 80);;
  print "CRYPTO TRADING PLATFORM - DATABASE SETUP";;
  print (str_mul "=" 80);;
  print (nl +:+ "[v0] Reading SQL scripts...");;
  schema_sql ← open_read SCHEMA_PATH;
  seed_sql ← open_read SEED_PATH;
  print "[v0] SQL scripts loaded successfully";;
  mret (schema_sql, seed_sql).

(** Lines 31-60 *)
Definition step1 (supabase : client) (schema_sql : string) : M unit :=
  print (nl +:+ str_mul "=" 80);;
  print "STEP 1: Creating Enhanced Database Schema";;
  print (str_mul "=" 80);;
  try_except
    (result ← execute supabase (Rpc "exec_sql" [("sql", schema_sql)]);
     print (nl +:+ "✓ Schema creation completed successfully!");;
     print (nl +:+ "Tables created:");;
     print "  • user_profiles";;
     print "  • exchange_connections (Kraken, Binance US, Coinbase)";;
     print "  • wallet_connections (MetaMask, WalletConnect, etc.)";;
     print "  • price_history";;
     print "  • trading_orders";;
     print "  • transactions";;
     print "  • portfolio_holdings";;
     print "  • trading_strategies";;
     print "  • price_alerts";;
     print "  • dashboard_stats";;
     print (nl +:+ "✓ Row Level Security (RLS) policies enabled");;
     print "✓ Indexes created for performance";;
     print "✓ Triggers configured for auto-updates")
    (λ e,
     print (nl +:+ "✗ Error creating schema: " +:+ exn_str e);;
     print (nl +:+ "NOTE: If you see 'relation does not exist' errors, this is expected.");;
     print "      The script will execute via the Supabase SQL Editor.";;
     print (nl +:+ "Please run the following scripts manually in Supabase SQL Editor:");;
     print "  1. scripts/001_reset_and_create_enhanced_schema.sql";;
     print "  2. scripts/002_seed_sample_data.sql").

(** Lines 62-77 *)
Definition step2 (supabase : client) (seed_sql : string) : M unit :=
  print (nl +:+ str_mul "=" 80);;
  print "STEP 2: Seeding Sample Price Data";;
  print (str_mul "=" 80);;
  try_except
    (result ← execute supabase (Rpc "exec_sql" [("sql", seed_sql)]);
     print (nl +:+ "✓ Sample data seeded successfully!");;
     print (nl +:+ "Sample cryptocurrencies added:");;
     print "  • BTC (Bitcoin) - 5 historical data points";;
     print "  • ETH (Ethereum) - 5 historical data points";;
     print "  • SOL (Solana) - 3 historical data points";;
     print "  • ADA (Cardano) - 2 historical data points";;
     print "  • MATIC (Polygon) - 2 historical data points")
    (λ e,
     print (nl +:+ "✗ Error seeding data: " +:+ exn_str e)).

(** Lines 79-97 *)
Definition step3 (supabase : client) : M unit :=
  print (nl +:+ str_mul "=" 80);;
  print "STEP 3: Verifying Database Setup";;
  print (str_mul "=" 80);;
  try_except
    (result ← execute supabase (Select "price_history" "symbol" (Some "exact"));
     print (nl +:+ "✓ Database connection successful!");;
     print ("✓ Found " +:+ str_count (count result) +:+ " price history records");;
     symbols_result ← execute supabase (Select "price_history" "symbol" None);
     unique_symbols ← of_result (set_of_column "symbol" (data symbols_result));
     print ("✓ Available symbols: " +:+ join ", " (sorted unique_symbols)))
    (λ e,
     print (nl +:+ "✗ Verification failed: " +:+ exn_str e);;
     print (nl +:+ "Please ensure the SQL scripts have been executed in Supabase.")).

(** Lines 99-107 *)
Definition summary : M unit :=
  print (nl +:+ str_mul "=" 80);;
  print "DATABASE SETUP COMPLETE!";;
  print (str_mul "=" 80);;
  print (nl +:+ "Next steps:");;
  print "  1. Add exchange API credentials via the Trading page";;
  print "  2. Connect DeFi wallets via the Wallet Connect button";;
  print "  3. Start monitoring crypto prices in real-time";;
  print "  4. Create trading strategies and set price alerts";;
  print (nl +:+ str_mul "=" 80).

(** The whole module, top to bottom. *)
Definition main : M unit :=
  '(SUPABASE_URL, SUPABASE_SERVICE_ROLE_KEY) ← credentials;
  supabase ← create_client SUPABASE_URL SUPABASE_SERVICE_ROLE_KEY;
  '(schema_sql, seed_sql) ← load_scripts;
  step1 supabase schema_sql;;
  step2 supabase seed_sql;;
  step3 supabase;;
  summary.

(** ** Running the script *)

Definition run (w : world) : outcome unit * list event := main w [].

(** The process exit status: 0 when the module body runs to its end, the
    argument of [exit], and 1 for an exception nobody caught. *)
Definition exit_status {A} (o : outcome A) : Z :=
  match o with
  | Ret _ => 0
  | Raise _ => 1
  | SystemExit code => code
  end.

(** What was written to standard output, one entry per [print]. *)
Definition stdout (t : list event) : list string :=
  omap (λ ev, match ev with Printed s => Some s | _ => None end) t.

(** The [.execute()] calls, in order. *)
Definition remote_calls (t : list event) : list request := requests_of t.

(** ** Vocabulary for the statements *)

(** The four requests the script can send. *)
Definition schema_rpc (schema_sql : string) : request := Rpc "exec_sql" [("sql", schema_sql)].
Definition seed_rpc (seed_sql : string) : request := Rpc "exec_sql" [("sql", seed_sql)].
Definition count_query : request := Select "price_history" "symbol" (Some "exact").
Definition symbols_query : request := Select "price_history" "symbol" None.

(** A variable is missing when it is unset or set to the empty string. *)
Definition missing (w : world) (name : string) : Prop :=
  environ w !! name = None ∨ environ w !! name = Some "".

(** Both variables set and non-empty, both files readable. *)
Record ready (w : world) (url key schema_sql seed_sql : string) : Prop := Ready {
  ready_url : environ w !! "SUPABASE_URL" = Some url;
  ready_url_ne : url ≠ "";
  ready_key : environ w !! "SUPABASE_SERVICE_ROLE_KEY" = Some key;
  ready_key_ne : key ≠ "";
  ready_schema : read_text w SCHEMA_PATH = inr schema_sql;
  ready_seed : read_text w SEED_PATH = inr seed_sql
}.

(** The answers of the service to the four requests, each asked after the
    ones before it. *)
Definition schema_response (w : world) (url key schema_sql seed_sql : string)
    : pyexn + api_response :=
  service w (Client url key) [] (schema_rpc schema_sql).

Definition seed_response (w : world) (url key schema_sql seed_sql : string)
    : pyexn + api_response :=
  service w (Client url key) [schema_rpc schema_sql] (seed_rpc seed_sql).

Definition count_response (w : world) (url key schema_sql seed_sql : string)
    : pyexn + api_response :=
  service w (Client url key) [schema_rpc schema_sql; seed_rpc seed_sql] count_query.

Definition symbols_response (w : world) (url key schema_sql seed_sql : string)
    : pyexn + api_response :=
  service w (Client url key)
    [schema_rpc schema_sql; seed_rpc seed_sql; count_query] symbols_query.

(** The verification step fails with [e]: one of its two queries raises
    it, or reading the symbol column of the returned rows does. *)
Definition verification_error (w : world) (url key schema_sql seed_sql : string)
    (e : pyexn) : Prop :=
  count_response w url key schema_sql seed_sql = inl e ∨
  (∃ r3, count_response w url key schema_sql seed_sql = inr r3 ∧
         symbols_response w url key schema_sql seed_sql = inl e) ∨
  (∃ r3 r4, count_response w url key schema_sql seed_sql = inr r3 ∧
            symbols_response w url key schema_sql seed_sql = inr r4 ∧
            set_of_column "symbol" (data r4) = inl e).

(** [syms] are the values of the symbol column of [rows], row by row. *)
Definition symbols_of (rows : list row) (syms : list string) : Prop :=
  Forall2 (λ r s, r !! "symbol" = Some s) rows syms.

(** What has happened when the scripts are loaded. *)
Definition loaded_events (url key : string) : list event :=
  [ CreateClient url key;
    Printed (str_mul "=" 80);
    Printed "CRYPTO TRADING PLATFORM - DATABASE SETUP";
    Printed (str_mul "=" 80);
    Printed (nl +:+ "[v0] Reading SQL scripts...");
    OpenRead SCHEMA_PATH;
    OpenRead SEED_PATH;
    Printed "[v0] SQL scripts loaded successfully" ].

(** The closing summary banner. *)
Definition closing_banner : list string :=
  [ nl +:+ str_mul "=" 80;
    "DATABASE SETUP COMPLETE!";
    str_mul "=" 80;
    nl +:+ "Next steps:";
    "  1. Add exchange API credentials via the Trading page";
    "  2. Connect DeFi wallets via the Wallet Connect button";
    "  3. Start monitoring crypto prices in real-time";
    "  4. Create trading strategies and set price alerts";
    nl +:+ str_mul "=" 80 ].

(** The lines of the handlers that tell the operator what to do. *)
Definition remediation_guidance : list string :=
  [ nl +:+ "Please run the following scripts manually in Supabase SQL Editor:";
    nl +:+ "Please ensure the SQL scripts have been executed in Supabase." ].

(** A contiguous run of lines inside the output. *)
Definition segment_of {A} (seg l : list A) : Prop :=
  ∃ pre post, l = pre ++ seg ++ post.

(** The printed lines that start with [p]. *)
Definition lines_with_prefix (p : string) (t : list event) : list string :=
  filter (λ l, String.prefix p l = true) (stdout t).

(** [needle in hay] *)
Fixpoint occurs_in (needle hay : string) : bool :=
  String.prefix needle hay ||
  match hay with
  | EmptyString => false
  | String _ hay' => occurs_in needle hay'
  end.

(** What the run did besides printing: the client it built, the files it
    opened, the requests it sent, in order. *)
Definition effects (t : list event) : list event :=
  omap (λ ev, match ev with Printed _ => None | _ => Some ev end) t.

(** ** Concrete worlds *)

Definition test_environ : gmap string string :=
  {[ "SUPABASE_URL" := "https://abc.supabase.co";
     "SUPABASE_SERVICE_ROLE_KEY" := "service-role-key" ]}.

Definition test_files (path : string) : pyexn + string :=
  inr ("-- " +:+ path).

Definition symbol_row (s : string) : row := {[ "symbol" := s ]}.

(** A service that accepts both scripts and answers the two queries. *)
Definition mock_service (n : Z) (rows : list row)
    (c : client) (h : list request) (r : request) : pyexn + api_response :=
  match r with
  | Rpc _ _ => inr (ApiResponse [] None)
  | Select _ _ (Some _) => inr (ApiResponse rows (Some n))
  | Select _ _ None => inr (ApiResponse rows None)
  end.

(** A service on which every call raises. *)
Definition down_service (msg : string)
    (c : client) (h : list request) (r : request) : pyexn + api_response :=
  inl (PyExn "APIError" msg).

Definition happy_world : world :=
  World test_environ test_files
    (mock_service 19 (symbol_row <$> ["BTC"; "ETH"; "SOL"; "ADA"; "MATIC"])).

Definition mock_world : world :=
  World test_environ test_files
    (mock_service 12 (symbol_row <$> ["BTC"; "BTC"; "ETH"; "SOL"])).

Definition shuffled_world : world :=
  World test_environ test_files
    (mock_service 12 (symbol_row <$> ["SOL"; "ETH"; "BTC"; "SOL"; "ETH"])).

Definition down_world : world :=
  World test_environ test_files (down_service "connection refused").

Definition no_environ_world : world :=
  World ∅ test_files (down_service "connection refused").

Definition no_schema_world : world :=
  World test_environ
    (λ path, inl (PyExn "FileNotFoundError"
                    ("[Errno 2] No such file or directory: '" +:+ path +:+ "'")))
    (down_service "connection refused").

(** The schema is applied, the seed script is rejected. *)
Definition seed_rejected_world : world :=
  World test_environ test_files
    (λ c h r,
       match r, h with
       | Rpc _ _, _ :: _ => inl (PyExn "APIError" "duplicate key value")
       | _, _ => mock_service 12 (symbol_row <$> ["BTC"; "ETH"]) c h r
       end).

(** The count query is refused, everything else would succeed. *)
Definition count_refused_world : world :=
  World test_environ test_files
    (λ c h r,
       match r with
       | Select _ _ (Some _) => inl (PyExn "APIError" "permission denied")
       | _ => mock_service 12 (symbol_row <$> ["BTC"; "ETH"]) c h r
       end).

(** A row comes back without its symbol column. *)
Definition bad_row_world : world :=
  World test_environ test_files
    (mock_service 3 [symbol_row "BTC"; {[ "price" := "1" ]}; symbol_row "ETH"]).

(** Every call fails with a message that quotes the endpoint. *)
Definition echo_world : world :=
  World test_environ test_files
    (λ c h r, inl (PyExn "ConnectError" ("cannot reach " +:+ supabase_url c))).

(** The same service behind other credentials. *)
Definition other_environ : gmap string string :=
  {[ "SUPABASE_URL" := "https://xyz.supabase.co";
     "SUPABASE_SERVICE_ROLE_KEY" := "another-key" ]}.

Definition other_world : world :=
  World other_environ test_files
    (mock_service 12 (symbol_row <$> ["BTC"; "BTC"; "ETH"; "SOL"])).

(** The count query is answered, the symbols query is refused. *)
Definition symbols_refused_world : world :=
  World test_environ test_files
    (λ c h r,
       match r with
       | Select _ _ None => inl (PyExn "APIError" "statement timeout")
       | _ => mock_service 7 [] c h r
       end).

(** The table exists and is empty. *)
Definition empty_table_world : world :=
  World test_environ test_files (mock_service 0 []).

(** The schema script is there, the seed script is not. *)
Definition no_seed_world : world :=
  World test_environ
    (λ path,
       if bool_decide (path = SEED_PATH)
       then inl (PyExn "FileNotFoundError" "[Errno 2] No such file or directory")
       else inr ("-- " +:+ path))
    (down_service "connection refused").


(** ** Symbolic execution *)

Ltac exec :=
  cbv [run main credentials load_scripts step1 step2 step3 summary
       print emit raise exit ask history try_except of_result
       os_environ_get create_client open_read execute
       mbind M_bind mret M_ret app requests_of omap list_omap loaded_events].

Ltac case_service :=
  repeat match goal with
  | |- context [service ?w ?c ?h ?r] =>
      let e := fresh "e" in let r' := fresh "r" in
      destruct (service w c h r) as [e|r'] eqn:?
  end.

Ltac step_service :=
  match goal with
  | |- context [service ?w ?c ?h ?r] =>
      let e := fresh "e" in let r' := fresh "r" in
      destruct (service w c h r) as [e|r'] eqn:?; exec
  end.

Ltac opaque_data :=
  repeat match goal with
  | |- context [exn_str ?e] => generalize (exn_str e); intro
  | |- context [str_count ?c] => generalize (str_count c); intro
  | |- context [join ?sep ?l] => generalize (join sep l); intro
  end.

Ltac unfold_responses :=
  unfold schema_response, seed_response, count_response, symbols_response,
    schema_rpc, seed_rpc, count_query, symbols_query in *.

(** ** Lists of lines *)

Lemma suffix_by_drop {A} (l1 l2 : list A) (n : nat) :
  drop n l2 = l1 → l1 `suffix_of` l2.
Proof. intros <-. exists (take n l2). by rewrite take_drop. Qed.

Lemma segment_by_drop {A} (seg l : list A) (n : nat) :
  take (length seg) (drop n l) = seg → segment_of seg l.
Proof.
  intros <-. exists (take n l), (drop (length seg) (drop n l)).
  by rewrite !take_drop.
Qed.

Ltac by_suffix :=
  match goal with
  | |- ?a `suffix_of` ?b =>
      apply (suffix_by_drop a b (length b - length a)); vm_compute; reflexivity
  end.

Ltac segment_from n fuel :=
  lazymatch fuel with
  | O => fail "no such segment"
  | S ?fuel' =>
      first [ apply (segment_by_drop _ _ n); vm_compute; reflexivity
            | segment_from (S n) fuel' ]
  end.

Ltac by_segment := segment_from 0%nat 60%nat.

(** ** The builtins *)

Lemma py_not_true (x : option string) :
  py_not x = true ↔ x = None ∨ x = Some "".
Proof.
  destruct x as [s|]; simpl.
  - rewrite bool_decide_eq_true. split.
    + intros ->. by right.
    + intros [?|?]; congruence.
  - split; [by left|done].
Qed.

Lemma py_not_false (s : string) : s ≠ "" → py_not (Some s) = false.
Proof. intros Hs. simpl. by apply bool_decide_eq_false. Qed.

(** The credential check has two outcomes. *)
Lemma credentials_cases (w : world) :
  (missing w "SUPABASE_URL" ∨ missing w "SUPABASE_SERVICE_ROLE_KEY") ∨
  (∃ url key, environ w !! "SUPABASE_URL" = Some url ∧ url ≠ "" ∧
              environ w !! "SUPABASE_SERVICE_ROLE_KEY" = Some key ∧ key ≠ "").
Proof.
  unfold missing.
  destruct (environ w !! "SUPABASE_URL") as [url|]; [|by left; left; left].
  destruct (decide (url = "")) as [->|Hu]; [by left; left; right|].
  destruct (environ w !! "SUPABASE_SERVICE_ROLE_KEY") as [key|];
    [|by left; right; left].
  destruct (decide (key = "")) as [->|Hk]; [by left; right; right|].
  right. by exists url, key.
Qed.

(** [sorted] returns the members of the set, each once, in increasing
    order. *)
Lemma sorted_spec (s : gset string) :
  StronglySorted String.le (sorted s) ∧ NoDup (sorted s) ∧
  ∀ x, x ∈ sorted s ↔ x ∈ s.
Proof.
  unfold sorted. split; [|split].
  - apply StronglySorted_merge_sort; apply _.
  - rewrite merge_sort_Permutation. apply NoDup_elements.
  - intros x. rewrite merge_sort_Permutation. apply elem_of_elements.
Qed.

(** The order in which the set hands out its members does not matter. *)
Lemma sorted_any_order (s : gset string) (l : list string) :
  l ≡ₚ elements s → merge_sort String.le l = sorted s.
Proof.
  intros Hl. unfold sorted.
  apply (StronglySorted_unique String.le).
  - apply StronglySorted_merge_sort; apply _.
  - apply StronglySorted_merge_sort; apply _.
  - by rewrite !merge_sort_Permutation.
Qed.

(** A sorted duplicate-free list is determined by its members. *)
Lemma sorted_members_unique (l1 l2 : list string) :
  StronglySorted String.le l1 → NoDup l1 →
  StronglySorted String.le l2 → NoDup l2 →
  (∀ x, x ∈ l1 ↔ x ∈ l2) → l1 = l2.
Proof.
  intros Hs1 Hn1 Hs2 Hn2 Hm.
  apply (StronglySorted_unique String.le); [done..|].
  by apply NoDup_Permutation.
Qed.

Lemma set_of_column_ok (rows : list row) (syms : list string) :
  symbols_of rows syms → set_of_column "symbol" rows = inr (list_to_set syms).
Proof.
  induction 1 as [|r s rows syms Hr _ IH]; [done|].
  cbn [set_of_column]. unfold getitem. rewrite Hr, IH. reflexivity.
Qed.

Lemma set_of_column_missing (key : string) (rows : list row) :
  (∃ r, r ∈ rows ∧ r !! key = None) →
  set_of_column key rows = inl (PyExn "KeyError" ("'" +:+ key +:+ "'")).
Proof.
  intros (r & Hin & Hr). induction rows as [|r0 rows IH]; [by inversion Hin|].
  cbn [set_of_column]. unfold getitem at 1.
  destruct (r0 !! key) as [v|] eqn:Hr0; [|done].
  rewrite IH; [done|].
  apply elem_of_cons in Hin as [->|Hin]; [congruence|done].
Qed.

(** ** The run, stage by stage *)

Lemma run_missing (w : world) :
  missing w "SUPABASE_URL" ∨ missing w "SUPABASE_SERVICE_ROLE_KEY" →
  run w = (SystemExit 1,
           [ Printed "ERROR: Missing Supabase credentials!";
             Printed "Required environment variables: SUPABASE_URL, SUPABASE_SERVICE_ROLE_KEY" ]).
Proof.
  unfold missing. rewrite <-!py_not_true. intros Hm. exec.
  destruct Hm as [-> | ->]; [done|].
  by rewrite orb_true_r.
Qed.

Lemma run_present (w : world) (url key : string) :
  environ w !! "SUPABASE_URL" = Some url → url ≠ "" →
  environ w !! "SUPABASE_SERVICE_ROLE_KEY" = Some key → key ≠ "" →
  run w =
    ('(schema_sql, seed_sql) ← load_scripts;
     step1 (Client url key) schema_sql;;
     step2 (Client url key) seed_sql;;
     step3 (Client url key);;
     summary) w [CreateClient url key].
Proof.
  intros Hu Hune Hk Hkne.
  cbv [run main credentials os_environ_get ask mbind M_bind mret M_ret
       create_client emit app].
  rewrite Hu, Hk, !py_not_false by done. reflexivity.
Qed.

Lemma run_ready (w : world) (url key schema_sql seed_sql : string) :
  ready w url key schema_sql seed_sql →
  run w =
    (step1 (Client url key) schema_sql;;
     step2 (Client url key) seed_sql;;
     step3 (Client url key);;
     summary) w (loaded_events url key).
Proof.
  intros [Hu Hune Hk Hkne Hs1 Hs2].
  rewrite (run_present w url key) by done.
  cbv [load_scripts open_read print emit ask of_result raise
       mbind M_bind mret M_ret app].
  rewrite Hs1, Hs2. reflexivity.
Qed.

(** After the scripts are loaded nothing stops the run: whatever the
    service answers, the module body runs to its end, having sent the
    requests in the order of the three steps. *)
Lemma run_ready_trace (w : world) (url key schema_sql seed_sql : string) :
  ready w url key schema_sql seed_sql →
  ∃ t, run w = (Ret (), t) ∧
       remote_calls t =
         [schema_rpc schema_sql; seed_rpc seed_sql; count_query] ++
         match count_response w url key schema_sql seed_sql with
         | inl _ => []
         | inr _ => [symbols_query]
         end ∧
       closing_banner `suffix_of` stdout t.
Proof.
  intros Hr. rewrite (run_ready _ _ _ _ _ Hr).
  unfold_responses. exec. case_service;
  try destruct (set_of_column _ _) as [e5|s];
  (eexists; split; [reflexivity|split; [reflexivity|by_suffix]]).
Qed.

Lemma remote_calls_calls (w : world) (url key schema_sql seed_sql : string) :
  ready w url key schema_sql seed_sql →
  remote_calls (snd (run w)) =
    [schema_rpc schema_sql; seed_rpc seed_sql; count_query] ++
    match count_response w url key schema_sql seed_sql with
    | inl _ => []
    | inr _ => [symbols_query]
    end.
Proof.
  intros Hr. destruct (run_ready_trace _ _ _ _ _ Hr) as (t & -> & Hc & _).
  exact Hc.
Qed.

(** The first file that cannot be read ends the run with its error. *)
Lemma run_read_error (w : world) (url key : string) (e : pyexn) :
  environ w !! "SUPABASE_URL" = Some url → url ≠ "" →
  environ w !! "SUPABASE_SERVICE_ROLE_KEY" = Some key → key ≠ "" →
  read_text w SCHEMA_PATH = inl e ∨
  (∃ schema_sql, read_text w SCHEMA_PATH = inr schema_sql ∧
                 read_text w SEED_PATH = inl e) →
  ∃ t, run w = (Raise e, t) ∧ remote_calls t = [] ∧
       stdout t = [ str_mul "=" 80;
                    "CRYPTO TRADING PLATFORM - DATABASE SETUP";
                    str_mul "=" 80;
                    nl +:+ "[v0] Reading SQL scripts..." ].
Proof.
  intros Hu Hune Hk Hkne Hread.
  rewrite (run_present w url key) by done.
  cbv [load_scripts open_read print emit ask of_result raise
       mbind M_bind mret M_ret app].
  destruct Hread as [->|(schema_sql & -> & ->)]; eexists; split; try reflexivity.
  all: split; reflexivity.
Qed.

(** ** The credential check *)

(** C1. When either required variable (SUPABASE_URL,
    SUPABASE_SERVICE_ROLE_KEY) is unset or empty, the run prints the error
    line and the line naming the two required variables and stops with
    exit status 1; nothing else happens: no client is built and no request
    is sent. *)
Theorem missing_credentials_exit (w : world) :
  missing w "SUPABASE_URL" ∨ missing w "SUPABASE_SERVICE_ROLE_KEY" →
  fst (run w) = SystemExit 1 ∧
  exit_status (fst (run w)) ≠ 0%Z ∧
  snd (run w) =
    [ Printed "ERROR: Missing Supabase credentials!";
      Printed "Required environment variables: SUPABASE_URL, SUPABASE_SERVICE_ROLE_KEY" ] ∧
  (∀ url key, CreateClient url key ∉ snd (run w)) ∧
  remote_calls (snd (run w)) = [].
Proof.
  intros Hm. rewrite (run_missing w Hm). cbn [fst snd exit_status].
  repeat split; try done.
  intros url key Hin.
  repeat (apply elem_of_cons in Hin as [Hin|Hin]; [discriminate Hin|]).
  by apply elem_of_nil in Hin.
Qed.

Lemma missing_credentials_exit_witness :
  (missing no_environ_world "SUPABASE_URL" ∨
   missing no_environ_world "SUPABASE_SERVICE_ROLE_KEY") ∧
  exit_status (fst (run no_environ_world)) ≠ 0%Z ∧
  remote_calls (snd (run no_environ_world)) = [].
Proof.
  assert (missing no_environ_world "SUPABASE_URL" ∨
          missing no_environ_world "SUPABASE_SERVICE_ROLE_KEY") as Hm.
  { left. left. reflexivity. }
  split; [exact Hm|].
  destruct (missing_credentials_exit no_environ_world Hm) as (_ & Hs & _ & _ & Hc).
  split; [exact Hs|exact Hc].
Defined.

(** ** The three remote steps *)

(** C2 (as stated) fails when the count query succeeds: the verification
    step then sends a second query, so four requests leave the client. *)
Lemma happy_path_sends_four_requests :
  ready happy_world "https://abc.supabase.co" "service-role-key"
    ("-- scripts/001_reset_and_create_enhanced_schema.sql")
    ("-- scripts/002_seed_sample_data.sql") ∧
  remote_calls (snd (run happy_world)) =
    [ schema_rpc "-- scripts/001_reset_and_create_enhanced_schema.sql";
      seed_rpc "-- scripts/002_seed_sample_data.sql";
      count_query; symbols_query ] ∧
  length (remote_calls (snd (run happy_world))) ≠ 3.
Proof.
  split; [|split].
  - split; try reflexivity; discriminate.
  - vm_compute. reflexivity.
  - vm_compute. discriminate.
Qed.

(** C2 (amended). With both variables set and both files read, the client
    sends execute_sql(schema), execute_sql(seed) and the count query, in
    this order and whatever each of them answers; the symbols query follows
    exactly when the count query succeeded. Three requests are sent when the
    count query fails and four otherwise. *)
Theorem remote_calls_in_order (w : world) (url key schema_sql seed_sql : string) :
  ready w url key schema_sql seed_sql →
  remote_calls (snd (run w)) =
    [schema_rpc schema_sql; seed_rpc seed_sql; count_query] ++
    match count_response w url key schema_sql seed_sql with
    | inl _ => []
    | inr _ => [symbols_query]
    end.
Proof. apply remote_calls_calls. Qed.

Lemma remote_calls_in_order_witness :
  remote_calls (snd (run down_world)) =
    [ schema_rpc "-- scripts/001_reset_and_create_enhanced_schema.sql";
      seed_rpc "-- scripts/002_seed_sample_data.sql";
      count_query ].
Proof.
  apply (remote_calls_in_order down_world
           "https://abc.supabase.co" "service-role-key").
  split; try reflexivity; discriminate.
Defined.

(** C3. Once the credential check and the two file reads have passed, the
    run ends with the closing summary banner and exit status 0, whatever
    the three remote steps do; with readable files the exit status is
    non-zero exactly when the credential check fails. *)
Theorem exit_zero_after_load (w : world) (schema_sql seed_sql : string) :
  read_text w SCHEMA_PATH = inr schema_sql →
  read_text w SEED_PATH = inr seed_sql →
  (∀ url key, ready w url key schema_sql seed_sql →
     fst (run w) = Ret () ∧
     exit_status (fst (run w)) = 0%Z ∧
     closing_banner `suffix_of` stdout (snd (run w))) ∧
  (exit_status (fst (run w)) ≠ 0%Z ↔
     missing w "SUPABASE_URL" ∨ missing w "SUPABASE_SERVICE_ROLE_KEY").
Proof.
  intros Hs1 Hs2.
  assert (∀ url key, ready w url key schema_sql seed_sql →
     fst (run w) = Ret () ∧ exit_status (fst (run w)) = 0%Z ∧
     closing_banner `suffix_of` stdout (snd (run w))) as Hok.
  { intros url key Hr.
    destruct (run_ready_trace _ _ _ _ _ Hr) as (t & -> & _ & Hb). done. }
  split; [exact Hok|]. split.
  - intros Hne.
    destruct (credentials_cases w) as [Hm|(url & key & Hu & Hune & Hk & Hkne)];
      [exact Hm|].
    exfalso. apply Hne. by apply (Hok url key).
  - intros Hm. by rewrite (run_missing w Hm).
Qed.

Lemma exit_zero_after_load_witness :
  service down_world (Client "https://abc.supabase.co" "service-role-key") []
    (schema_rpc "-- scripts/001_reset_and_create_enhanced_schema.sql")
    = inl (PyExn "APIError" "connection refused") ∧
  fst (run down_world) = Ret () ∧
  exit_status (fst (run down_world)) = 0%Z ∧
  closing_banner `suffix_of` stdout (snd (run down_world)).
Proof.
  split; [reflexivity|].
  apply (proj1 (exit_zero_after_load down_world
           "-- scripts/001_reset_and_create_enhanced_schema.sql"
           "-- scripts/002_seed_sample_data.sql" eq_refl eq_refl)
           "https://abc.supabase.co" "service-role-key").
  split; try reflexivity; discriminate.
Defined.

(** ** Reading the scripts *)

(** C5. When either SQL file cannot be read, the run stops with a non-zero
    status before any request is sent and before any line of step 1 is
    printed. Whenever the credential check has passed, so that the read is
    attempted, the read error leaves the run uncaught: it is the outcome of
    the run, and the output stops at the line that announces the reading. *)
Theorem read_error_propagates (w : world) (e : pyexn) :
  read_text w SCHEMA_PATH = inl e ∨
  (∃ schema_sql, read_text w SCHEMA_PATH = inr schema_sql ∧
                 read_text w SEED_PATH = inl e) →
  exit_status (fst (run w)) ≠ 0%Z ∧
  remote_calls (snd (run w)) = [] ∧
  lines_with_prefix "STEP 1" (snd (run w)) = [] ∧
  (∀ url key,
     environ w !! "SUPABASE_URL" = Some url → url ≠ "" →
     environ w !! "SUPABASE_SERVICE_ROLE_KEY" = Some key → key ≠ "" →
     fst (run w) = Raise e ∧
     stdout (snd (run w)) =
       [ str_mul "=" 80;
         "CRYPTO TRADING PLATFORM - DATABASE SETUP";
         str_mul "=" 80;
         nl +:+ "[v0] Reading SQL scripts..." ]).
Proof.
  intros Hread.
  destruct (credentials_cases w) as [Hm|(url & key & Hu & Hune & Hk & Hkne)].
  - rewrite (run_missing w Hm). cbn [fst snd exit_status].
    split; [done|]. split; [done|]. split; [done|].
    intros url key Hu Hune Hk Hkne. exfalso.
    destruct Hm as [[?|?]|[?|?]]; congruence.
  - destruct (run_read_error w url key e) as (t & Hrun & Hc & Ho); [done..|].
    rewrite Hrun. cbn [fst snd exit_status]. unfold lines_with_prefix.
    rewrite Ho. split; [done|]. split; [done|]. split; [done|].
    intros _ _ _ _ _ _. done.
Qed.

Lemma read_error_propagates_witness :
  ∃ e, fst (run no_schema_world) = Raise e ∧
       exn_class e = "FileNotFoundError" ∧
       remote_calls (snd (run no_schema_world)) = [].
Proof.
  exists (PyExn "FileNotFoundError"
            "[Errno 2] No such file or directory: 'scripts/001_reset_and_create_enhanced_schema.sql'").
  destruct (read_error_propagates no_schema_world
              (PyExn "FileNotFoundError"
                 "[Errno 2] No such file or directory: 'scripts/001_reset_and_create_enhanced_schema.sql'"))
    as (_ & Hc & _ & Hrun).
  - left. reflexivity.
  - split; [|split; [reflexivity|exact Hc]].
    apply (Hrun "https://abc.supabase.co" "service-role-key").
    + reflexivity.
    + discriminate.
    + reflexivity.
    + discriminate.
Defined.

(** ** The verification step *)

(** Both queries answered and every row carrying its symbol: the step
    prints the count line and one symbols line, and the banner follows. *)
Lemma run_verified (w : world) (url key schema_sql seed_sql : string)
    (d rows : list row) (cnt c : option Z) (syms : list string) :
  ready w url key schema_sql seed_sql →
  count_response w url key schema_sql seed_sql = inr (ApiResponse d cnt) →
  symbols_response w url key schema_sql seed_sql = inr (ApiResponse rows c) →
  symbols_of rows syms →
  ∃ t, run w = (Ret (), t) ∧
       ([ "✓ Found " +:+ str_count cnt +:+ " price history records";
          "✓ Available symbols: " +:+ join ", " (sorted (list_to_set syms)) ]
        ++ closing_banner) `suffix_of` stdout t ∧
       lines_with_prefix "✓ Available symbols" t =
         [ "✓ Available symbols: " +:+ join ", " (sorted (list_to_set syms)) ].
Proof.
  intros Hr Hcount Hsyms Hrows. rewrite (run_ready _ _ _ _ _ Hr).
  unfold_responses. exec. repeat step_service; simplify_eq.
  all: cbv [data count]; rewrite (set_of_column_ok _ _ Hrows); exec.
  all: generalize (join ", " (sorted (list_to_set syms))) (str_count cnt).
  all: intros line n; (eexists; split; [reflexivity|]); split;
    first [by_suffix | vm_compute; reflexivity].
Qed.

(** C4. When both verification queries are answered, the run reports the
    returned count and, right after it, the distinct symbol values in
    increasing order joined by ', ', and the closing banner follows. For
    count 12 and rows BTC, BTC, ETH, SOL the two lines read 12 and
    'BTC, ETH, SOL'; for count 19 and rows BTC, ETH, SOL, ADA, MATIC the
    list is 'ADA, BTC, ETH, MATIC, SOL'. *)
Theorem verification_report (w : world) (url key schema_sql seed_sql : string)
    (d rows : list row) (cnt c : option Z) (syms : list string) :
  ready w url key schema_sql seed_sql →
  count_response w url key schema_sql seed_sql = inr (ApiResponse d cnt) →
  symbols_response w url key schema_sql seed_sql = inr (ApiResponse rows c) →
  symbols_of rows syms →
  ∃ l : list string,
    ([ "✓ Found " +:+ str_count cnt +:+ " price history records";
       "✓ Available symbols: " +:+ join ", " l ] ++ closing_banner)
      `suffix_of` stdout (snd (run w)) ∧
    exit_status (fst (run w)) = 0%Z ∧
    StronglySorted String.le l ∧ NoDup l ∧ (∀ s, s ∈ l ↔ s ∈ syms) ∧
    (cnt = Some 12%Z → syms = ["BTC"; "BTC"; "ETH"; "SOL"] →
       str_count cnt = "12" ∧ join ", " l = "BTC, ETH, SOL") ∧
    (cnt = Some 19%Z → syms = ["BTC"; "ETH"; "SOL"; "ADA"; "MATIC"] →
       str_count cnt = "19" ∧ join ", " l = "ADA, BTC, ETH, MATIC, SOL").
Proof.
  intros Hr Hcount Hsyms Hrows.
  destruct (run_verified _ _ _ _ _ _ _ _ _ _ Hr Hcount Hsyms Hrows)
    as (t & -> & Hout & _).
  exists (sorted (list_to_set syms)).
  destruct (sorted_spec (list_to_set syms)) as (Hsorted & Hnodup & Hmem).
  split; [exact Hout|]. split; [reflexivity|].
  split; [exact Hsorted|]. split; [exact Hnodup|]. split.
  - intros s. rewrite Hmem. apply elem_of_list_to_set.
  - split; intros -> ->; split; vm_compute; reflexivity.
Qed.

Lemma verification_report_witness :
  ∃ l : list string,
    ([ "✓ Found 12 price history records";
       "✓ Available symbols: " +:+ join ", " l ] ++ closing_banner)
      `suffix_of` stdout (snd (run mock_world)) ∧
    join ", " l = "BTC, ETH, SOL".
Proof.
  destruct (verification_report mock_world
              "https://abc.supabase.co" "service-role-key"
              "-- scripts/001_reset_and_create_enhanced_schema.sql"
              "-- scripts/002_seed_sample_data.sql"
              (symbol_row <$> ["BTC"; "BTC"; "ETH"; "SOL"])
              (symbol_row <$> ["BTC"; "BTC"; "ETH"; "SOL"])
              (Some 12%Z) None ["BTC"; "BTC"; "ETH"; "SOL"])
    as (l & Hout & _ & _ & _ & _ & H12 & _).
  - split; try reflexivity; discriminate.
  - reflexivity.
  - reflexivity.
  - repeat constructor.
  - exists l. split; [exact Hout|]. exact (proj2 (H12 eq_refl eq_refl)).
Defined.

(** C8. When the count query raises, the symbols query is not sent, and
    after the header of step 3 the output holds the 'Verification failed'
    line with the error's message and the handler's closing line, then the
    banner; no line reports a connection, a count or symbols. *)
Theorem count_failure_skips_symbols (w : world)
    (url key schema_sql seed_sql : string) (e : pyexn) :
  ready w url key schema_sql seed_sql →
  count_response w url key schema_sql seed_sql = inl e →
  remote_calls (snd (run w)) =
    [schema_rpc schema_sql; seed_rpc seed_sql; count_query] ∧
  (symbols_query ∉ remote_calls (snd (run w))) ∧
  ([ nl +:+ str_mul "=" 80;
     "STEP 3: Verifying Database Setup";
     str_mul "=" 80;
     nl +:+ "✗ Verification failed: " +:+ exn_str e;
     nl +:+ "Please ensure the SQL scripts have been executed in Supabase." ]
   ++ closing_banner) `suffix_of` stdout (snd (run w)) ∧
  lines_with_prefix (nl +:+ "✓ Database connection") (snd (run w)) = [] ∧
  lines_with_prefix "✓ Found" (snd (run w)) = [] ∧
  lines_with_prefix "✓ Available symbols" (snd (run w)) = [] ∧
  length (lines_with_prefix (nl +:+ "✗ Verification failed") (snd (run w))) = 1.
Proof.
  intros Hr Hcount.
  assert (remote_calls (snd (run w)) =
            [schema_rpc schema_sql; seed_rpc seed_sql; count_query]) as Hcalls.
  { rewrite (remote_calls_calls w url key schema_sql seed_sql Hr), Hcount.
    reflexivity. }
  split; [exact Hcalls|]. split.
  { rewrite Hcalls. intros Hin.
    repeat (apply elem_of_cons in Hin as [Hin|Hin]; [discriminate Hin|]).
    by apply elem_of_nil in Hin. }
  rewrite (run_ready _ _ _ _ _ Hr). clear Hcalls.
  unfold_responses. exec. repeat step_service; simplify_eq.
  all: generalize (exn_str e); intros msg.
  all: repeat match goal with e' : pyexn |- _ =>
         generalize (exn_str e'); clear e'; intros ? end.
  all: cbn [snd]; split; [by_suffix|]; repeat split; vm_compute; reflexivity.
Qed.

(** C9. When a returned row lacks the symbol key, the lookup error is
    caught by the handler of the verification step: the run prints the
    'Verification failed' line with the error's message, then the closing
    banner, and ends with exit status 0. *)
Theorem malformed_row_is_caught (w : world)
    (url key schema_sql seed_sql : string)
    (r3 : api_response) (rows : list row) (c : option Z) :
  ready w url key schema_sql seed_sql →
  count_response w url key schema_sql seed_sql = inr r3 →
  symbols_response w url key schema_sql seed_sql = inr (ApiResponse rows c) →
  (∃ r, r ∈ rows ∧ r !! "symbol" = None) →
  fst (run w) = Ret () ∧
  exit_status (fst (run w)) = 0%Z ∧
  ([ nl +:+ "✗ Verification failed: 'symbol'";
     nl +:+ "Please ensure the SQL scripts have been executed in Supabase." ]
   ++ closing_banner) `suffix_of` stdout (snd (run w)) ∧
  lines_with_prefix "✓ Available symbols" (snd (run w)) = [].
Proof.
  intros Hr Hcount Hsyms Hrow.
  rewrite (run_ready _ _ _ _ _ Hr).
  unfold_responses. exec. repeat step_service; simplify_eq.
  all: cbv [data]; rewrite (set_of_column_missing _ _ Hrow); exec.
  all: generalize (str_count (count r3)); intros n.
  all: repeat match goal with e' : pyexn |- _ =>
         generalize (exn_str e'); clear e'; intros ? end.
  all: cbn [fst snd exit_status]; repeat split;
         first [by_suffix | vm_compute; reflexivity].
Qed.

Lemma malformed_row_is_caught_witness :
  fst (run bad_row_world) = Ret () ∧
  exit_status (fst (run bad_row_world)) = 0%Z ∧
  ([ nl +:+ "✗ Verification failed: 'symbol'";
     nl +:+ "Please ensure the SQL scripts have been executed in Supabase." ]
   ++ closing_banner) `suffix_of` stdout (snd (run bad_row_world)).
Proof.
  destruct (malformed_row_is_caught bad_row_world
              "https://abc.supabase.co" "service-role-key"
              "-- scripts/001_reset_and_create_enhanced_schema.sql"
              "-- scripts/002_seed_sample_data.sql"
              (ApiResponse
                 [symbol_row "BTC"; {[ "price" := "1" ]}; symbol_row "ETH"]
                 (Some 3%Z))
              [symbol_row "BTC"; {[ "price" := "1" ]}; symbol_row "ETH"] None)
    as (Ho & Hs & Hout & _).
  - split; try reflexivity; discriminate.
  - reflexivity.
  - reflexivity.
  - exists {[ "price" := "1" ]}. split; [|reflexivity].
    apply elem_of_cons. right. apply elem_of_cons. by left.
  - split; [exact Ho|]. split; [exact Hs|exact Hout].
Defined.

Lemma count_failure_skips_symbols_witness :
  remote_calls (snd (run count_refused_world)) =
    [ schema_rpc "-- scripts/001_reset_and_create_enhanced_schema.sql";
      seed_rpc "-- scripts/002_seed_sample_data.sql";
      count_query ] ∧
  lines_with_prefix "✓ Found" (snd (run count_refused_world)) = [].
Proof.
  destruct (count_failure_skips_symbols count_refused_world
              "https://abc.supabase.co" "service-role-key"
              "-- scripts/001_reset_and_create_enhanced_schema.sql"
              "-- scripts/002_seed_sample_data.sql"
              (PyExn "APIError" "permission denied"))
    as (Hc & _ & _ & _ & Hf & _).
  - split; try reflexivity; discriminate.
  - reflexivity.
  - split; [exact Hc|exact Hf].
Defined.

(** C10. Two runs whose symbol rows hold the same set of values print the
    same 'Available symbols' line, each exactly one such line: the listed
    symbols are in increasing order, without duplicates, and are the
    members of that set. *)
Theorem symbols_line_depends_on_set
    (w1 w2 : world) (url1 key1 schema1 seed1 url2 key2 schema2 seed2 : string)
    (d1 rows1 d2 rows2 : list row) (cnt1 c1 cnt2 c2 : option Z)
    (syms1 syms2 : list string) :
  ready w1 url1 key1 schema1 seed1 →
  count_response w1 url1 key1 schema1 seed1 = inr (ApiResponse d1 cnt1) →
  symbols_response w1 url1 key1 schema1 seed1 = inr (ApiResponse rows1 c1) →
  symbols_of rows1 syms1 →
  ready w2 url2 key2 schema2 seed2 →
  count_response w2 url2 key2 schema2 seed2 = inr (ApiResponse d2 cnt2) →
  symbols_response w2 url2 key2 schema2 seed2 = inr (ApiResponse rows2 c2) →
  symbols_of rows2 syms2 →
  (∀ s, s ∈ syms1 ↔ s ∈ syms2) →
  ∃ l : list string,
    lines_with_prefix "✓ Available symbols" (snd (run w1)) =
      [ "✓ Available symbols: " +:+ join ", " l ] ∧
    lines_with_prefix "✓ Available symbols" (snd (run w2)) =
      [ "✓ Available symbols: " +:+ join ", " l ] ∧
    StronglySorted String.le l ∧ NoDup l ∧ (∀ s, s ∈ l ↔ s ∈ syms1).
Proof.
  intros Hr1 Hcount1 Hsyms1 Hrows1 Hr2 Hcount2 Hsyms2 Hrows2 Hset.
  destruct (run_verified _ _ _ _ _ _ _ _ _ _ Hr1 Hcount1 Hsyms1 Hrows1)
    as (t1 & -> & _ & Hl1).
  destruct (run_verified _ _ _ _ _ _ _ _ _ _ Hr2 Hcount2 Hsyms2 Hrows2)
    as (t2 & -> & _ & Hl2).
  cbn [snd]. rewrite Hl1, Hl2.
  assert (list_to_set syms2 = list_to_set (C:=gset string) syms1) as ->.
  { apply set_eq. intros s. rewrite !elem_of_list_to_set. symmetry. apply Hset. }
  exists (sorted (list_to_set syms1)).
  destruct (sorted_spec (list_to_set syms1)) as (Hsorted & Hnodup & Hmem).
  repeat split; try done.
  - intros Hin. apply Hmem in Hin. by apply elem_of_list_to_set in Hin.
  - intros Hin. apply Hmem. by apply elem_of_list_to_set.
Qed.

Lemma symbols_line_depends_on_set_witness :
  lines_with_prefix "✓ Available symbols" (snd (run mock_world)) =
  lines_with_prefix "✓ Available symbols" (snd (run shuffled_world)).
Proof.
  destruct (symbols_line_depends_on_set mock_world shuffled_world
              "https://abc.supabase.co" "service-role-key"
              "-- scripts/001_reset_and_create_enhanced_schema.sql"
              "-- scripts/002_seed_sample_data.sql"
              "https://abc.supabase.co" "service-role-key"
              "-- scripts/001_reset_and_create_enhanced_schema.sql"
              "-- scripts/002_seed_sample_data.sql"
              (symbol_row <$> ["BTC"; "BTC"; "ETH"; "SOL"])
              (symbol_row <$> ["BTC"; "BTC"; "ETH"; "SOL"])
              (symbol_row <$> ["SOL"; "ETH"; "BTC"; "SOL"; "ETH"])
              (symbol_row <$> ["SOL"; "ETH"; "BTC"; "SOL"; "ETH"])
              (Some 12%Z) None (Some 12%Z) None
              ["BTC"; "BTC"; "ETH"; "SOL"] ["SOL"; "ETH"; "BTC"; "SOL"; "ETH"])
    as (l & H1 & H2 & _).
  - split; try reflexivity; discriminate.
  - reflexivity.
  - reflexivity.
  - repeat constructor.
  - split; try reflexivity; discriminate.
  - reflexivity.
  - reflexivity.
  - repeat constructor.
  - intros s. rewrite !elem_of_cons, !elem_of_nil. tauto.
  - rewrite H1, H2. reflexivity.
Defined.

(** ** Failures of the remote steps *)

(** C6 (as stated) fails for the seed step: its handler prints the error's
    message and nothing else, so when only the seed script is rejected the
    output holds no remediation line at all and the header of step 3
    follows the message directly. *)
Lemma seed_failure_prints_no_guidance :
  ready seed_rejected_world "https://abc.supabase.co" "service-role-key"
    "-- scripts/001_reset_and_create_enhanced_schema.sql"
    "-- scripts/002_seed_sample_data.sql" ∧
  seed_response seed_rejected_world "https://abc.supabase.co" "service-role-key"
    "-- scripts/001_reset_and_create_enhanced_schema.sql"
    "-- scripts/002_seed_sample_data.sql"
    = inl (PyExn "APIError" "duplicate key value") ∧
  segment_of
    [ nl +:+ "✗ Error seeding data: duplicate key value";
      nl +:+ str_mul "=" 80;
      "STEP 3: Verifying Database Setup" ]
    (stdout (snd (run seed_rejected_world))) ∧
  Forall (λ l, l ∉ remediation_guidance) (stdout (snd (run seed_rejected_world))).
Proof.
  split; [|split; [|split]].
  - split; try reflexivity; discriminate.
  - reflexivity.
  - by_segment.
  - apply (bool_decide_unpack _). vm_compute. exact I.
Qed.

(** C6 (amended). A failure of any of the three remote steps is caught in
    that step: the run goes on to the next step and ends normally, and no
    request is sent twice. The handler prints the error's message; the
    handlers of the schema step and of the verification step add their
    remediation lines, the handler of the seed step prints the message
    only. *)
Theorem remote_failures_are_reported (w : world)
    (url key schema_sql seed_sql : string) :
  ready w url key schema_sql seed_sql →
  fst (run w) = Ret () ∧
  remote_calls (snd (run w)) =
    [schema_rpc schema_sql; seed_rpc seed_sql; count_query] ++
    match count_response w url key schema_sql seed_sql with
    | inl _ => []
    | inr _ => [symbols_query]
    end ∧
  (∀ e, schema_response w url key schema_sql seed_sql = inl e →
     segment_of
       [ nl +:+ "✗ Error creating schema: " +:+ exn_str e;
         nl +:+ "NOTE: If you see 'relation does not exist' errors, this is expected.";
         "      The script will execute via the Supabase SQL Editor.";
         nl +:+ "Please run the following scripts manually in Supabase SQL Editor:";
         "  1. scripts/001_reset_and_create_enhanced_schema.sql";
         "  2. scripts/002_seed_sample_data.sql";
         nl +:+ str_mul "=" 80;
         "STEP 2: Seeding Sample Price Data" ]
       (stdout (snd (run w)))) ∧
  (∀ e, seed_response w url key schema_sql seed_sql = inl e →
     segment_of
       [ nl +:+ "✗ Error seeding data: " +:+ exn_str e;
         nl +:+ str_mul "=" 80;
         "STEP 3: Verifying Database Setup" ]
       (stdout (snd (run w)))) ∧
  (∀ e, verification_error w url key schema_sql seed_sql e →
     ([ nl +:+ "✗ Verification failed: " +:+ exn_str e;
        nl +:+ "Please ensure the SQL scripts have been executed in Supabase." ]
      ++ closing_banner) `suffix_of` stdout (snd (run w))).
Proof.
  intros Hr. split; [|split; [|split; [|split]]].
  - by destruct (run_ready_trace _ _ _ _ _ Hr) as (t & -> & _).
  - by apply remote_calls_calls.
  - intros e He. rewrite (run_ready _ _ _ _ _ Hr).
    unfold_responses. exec. repeat step_service; simplify_eq.
    all: try (destruct (set_of_column _ _); exec).
    all: opaque_data; cbn [snd]; by_segment.
  - intros e He. rewrite (run_ready _ _ _ _ _ Hr).
    unfold_responses. exec. repeat step_service; simplify_eq.
    all: try (destruct (set_of_column _ _); exec).
    all: opaque_data; cbn [snd]; by_segment.
  - intros e He. rewrite (run_ready _ _ _ _ _ Hr).
    unfold verification_error in He. unfold_responses. exec.
    destruct He as [He|[(r3 & Hr3 & He)|(r3 & r4 & Hr3 & Hr4 & He)]].
    all: repeat step_service; simplify_eq.
    all: try (rewrite He; exec).
    all: opaque_data; cbn [snd]; by_suffix.
Qed.

Lemma remote_failures_are_reported_witness :
  fst (run down_world) = Ret () ∧
  ([ nl +:+ "✗ Verification failed: connection refused";
     nl +:+ "Please ensure the SQL scripts have been executed in Supabase." ]
   ++ closing_banner) `suffix_of` stdout (snd (run down_world)).
Proof.
  destruct (remote_failures_are_reported down_world
              "https://abc.supabase.co" "service-role-key"
              "-- scripts/001_reset_and_create_enhanced_schema.sql"
              "-- scripts/002_seed_sample_data.sql")
    as (Ho & _ & _ & _ & Hv).
  - split; try reflexivity; discriminate.
  - split; [exact Ho|].
    apply (Hv (PyExn "APIError" "connection refused")).
    left. reflexivity.
Defined.

(** ** The credentials and the output *)

(** C7 (as stated) fails in its second half: the handlers print the
    message of a remote error as it is, so a message that quotes the
    endpoint puts the value of SUPABASE_URL on the console. *)
Lemma error_message_can_quote_endpoint :
  ready echo_world "https://abc.supabase.co" "service-role-key"
    "-- scripts/001_reset_and_create_enhanced_schema.sql"
    "-- scripts/002_seed_sample_data.sql" ∧
  environ echo_world !! "SUPABASE_URL" = Some "https://abc.supabase.co" ∧
  nl +:+ "✗ Error creating schema: cannot reach https://abc.supabase.co"
    ∈ stdout (snd (run echo_world)) ∧
  existsb (occurs_in "https://abc.supabase.co") (stdout (snd (run echo_world)))
    = true.
Proof.
  split; [|split; [|split]].
  - split; try reflexivity; discriminate.
  - reflexivity.
  - apply (bool_decide_unpack _). vm_compute. exact I.
  - vm_compute. reflexivity.
Qed.

(** C7 (amended). Two runs that differ only in the non-empty values of the
    two credential variables and are given the same answers by the service
    write the same lines to the console and end the same way: the output
    is determined by the two files and the answers, and the script passes
    neither variable to print. (A credential value can still reach the
    console inside the message of a remote error.) *)
Theorem output_independent_of_credentials
    (w1 w2 : world) (url1 key1 url2 key2 schema_sql seed_sql : string) :
  ready w1 url1 key1 schema_sql seed_sql →
  ready w2 url2 key2 schema_sql seed_sql →
  (∀ h r, service w1 (Client url1 key1) h r = service w2 (Client url2 key2) h r) →
  stdout (snd (run w1)) = stdout (snd (run w2)) ∧
  fst (run w1) = fst (run w2) ∧
  remote_calls (snd (run w1)) = remote_calls (snd (run w2)).
Proof.
  intros Hr1 Hr2 Hsvc.
  rewrite (run_ready _ _ _ _ _ Hr1), (run_ready _ _ _ _ _ Hr2).
  exec. repeat (rewrite ?Hsvc; step_service).
  all: try (destruct (set_of_column _ _); exec).
  all: cbn [fst snd]; repeat split; reflexivity.
Qed.

Lemma output_independent_of_credentials_witness :
  environ mock_world !! "SUPABASE_URL" ≠ environ other_world !! "SUPABASE_URL" ∧
  stdout (snd (run mock_world)) = stdout (snd (run other_world)).
Proof.
  split; [discriminate|].
  apply (output_independent_of_credentials mock_world other_world
           "https://abc.supabase.co" "service-role-key"
           "https://xyz.supabase.co" "another-key"
           "-- scripts/001_reset_and_create_enhanced_schema.sql"
           "-- scripts/002_seed_sample_data.sql").
  - split; try reflexivity; discriminate.
  - split; try reflexivity; discriminate.
  - intros h r. reflexivity.
Defined.

(** ** Further properties of the script *)

(** One symbolic run of a ready world, observed from several sides: what
    it did besides printing, which steps it announced, and which of the
    success and error markers of the two RPC steps it printed. *)
Lemma run_ready_observations (w : world) (url key schema_sql seed_sql : string) :
  ready w url key schema_sql seed_sql →
  ∃ t, run w = (Ret (), t) ∧
    effects t =
      [ CreateClient url key; OpenRead SCHEMA_PATH; OpenRead SEED_PATH;
        Execute (Client url key) (schema_rpc schema_sql);
        Execute (Client url key) (seed_rpc seed_sql);
        Execute (Client url key) count_query ] ++
      match count_response w url key schema_sql seed_sql with
      | inl _ => []
      | inr _ => [Execute (Client url key) symbols_query]
      end ∧
    lines_with_prefix "STEP " t =
      [ "STEP 1: Creating Enhanced Database Schema";
        "STEP 2: Seeding Sample Price Data";
        "STEP 3: Verifying Database Setup" ] ∧
    lines_with_prefix "ERROR" t = [] ∧
    lines_with_prefix (nl +:+ "✓ Schema creation") t =
      match schema_response w url key schema_sql seed_sql with
      | inl _ => []
      | inr _ => [nl +:+ "✓ Schema creation completed successfully!"]
      end ∧
    lines_with_prefix (nl +:+ "✗ Error creating schema") t =
      match schema_response w url key schema_sql seed_sql with
      | inl e => [nl +:+ "✗ Error creating schema: " +:+ exn_str e]
      | inr _ => []
      end ∧
    lines_with_prefix (nl +:+ "✓ Sample data seeded") t =
      match seed_response w url key schema_sql seed_sql with
      | inl _ => []
      | inr _ => [nl +:+ "✓ Sample data seeded successfully!"]
      end ∧
    lines_with_prefix (nl +:+ "✗ Error seeding data") t =
      match seed_response w url key schema_sql seed_sql with
      | inl e => [nl +:+ "✗ Error seeding data: " +:+ exn_str e]
      | inr _ => []
      end.
Proof.
  intros Hr. rewrite (run_ready _ _ _ _ _ Hr).
  unfold_responses. exec. repeat step_service.
  all: try (destruct (set_of_column _ _); exec).
  all: opaque_data; eexists; split; [reflexivity|].
  all: repeat split; vm_compute; reflexivity.
Qed.

(** X1. In every ready run the schema step prints exactly one of its two
    markers: the success line when the RPC returned, the error line with
    the exception's message when it raised. *)
Theorem schema_step_marker (w : world) (url key schema_sql seed_sql : string) :
  ready w url key schema_sql seed_sql →
  match schema_response w url key schema_sql seed_sql with
  | inr _ =>
      lines_with_prefix (nl +:+ "✓ Schema creation") (snd (run w)) =
        [nl +:+ "✓ Schema creation completed successfully!"] ∧
      lines_with_prefix (nl +:+ "✗ Error creating schema") (snd (run w)) = []
  | inl e =>
      lines_with_prefix (nl +:+ "✓ Schema creation") (snd (run w)) = [] ∧
      lines_with_prefix (nl +:+ "✗ Error creating schema") (snd (run w)) =
        [nl +:+ "✗ Error creating schema: " +:+ exn_str e]
  end.
Proof.
  intros Hr.
  destruct (run_ready_observations _ _ _ _ _ Hr)
    as (t & -> & _ & _ & _ & Hok & Herr & _).
  cbn [snd]. rewrite Hok, Herr.
  by destruct (schema_response _ _ _ _ _).
Qed.

Lemma schema_step_marker_witness :
  lines_with_prefix (nl +:+ "✓ Schema creation") (snd (run down_world)) = [] ∧
  lines_with_prefix (nl +:+ "✗ Error creating schema") (snd (run down_world)) =
    [nl +:+ "✗ Error creating schema: connection refused"].
Proof.
  apply (schema_step_marker down_world
           "https://abc.supabase.co" "service-role-key"
           "-- scripts/001_reset_and_create_enhanced_schema.sql"
           "-- scripts/002_seed_sample_data.sql").
  split; try reflexivity; discriminate.
Defined.

(** X2. In every ready run the seed step prints exactly one of its two
    markers, whatever the schema step did: the success line when its RPC
    returned, the error line with the exception's message when it raised. *)
Theorem seed_step_marker (w : world) (url key schema_sql seed_sql : string) :
  ready w url key schema_sql seed_sql →
  match seed_response w url key schema_sql seed_sql with
  | inr _ =>
      lines_with_prefix (nl +:+ "✓ Sample data seeded") (snd (run w)) =
        [nl +:+ "✓ Sample data seeded successfully!"] ∧
      lines_with_prefix (nl +:+ "✗ Error seeding data") (snd (run w)) = []
  | inl e =>
      lines_with_prefix (nl +:+ "✓ Sample data seeded") (snd (run w)) = [] ∧
      lines_with_prefix (nl +:+ "✗ Error seeding data") (snd (run w)) =
        [nl +:+ "✗ Error seeding data: " +:+ exn_str e]
  end.
Proof.
  intros Hr.
  destruct (run_ready_observations _ _ _ _ _ Hr)
    as (t & -> & _ & _ & _ & _ & _ & Hok & Herr).
  cbn [snd]. rewrite Hok, Herr.
  by destruct (seed_response _ _ _ _ _).
Qed.

Lemma seed_step_marker_witness :
  lines_with_prefix (nl +:+ "✓ Sample data seeded") (snd (run seed_rejected_world)) = [] ∧
  lines_with_prefix (nl +:+ "✗ Error seeding data") (snd (run seed_rejected_world)) =
    [nl +:+ "✗ Error seeding data: duplicate key value"].
Proof.
  apply (seed_step_marker seed_rejected_world
           "https://abc.supabase.co" "service-role-key"
           "-- scripts/001_reset_and_create_enhanced_schema.sql"
           "-- scripts/002_seed_sample_data.sql").
  split; try reflexivity; discriminate.
Defined.

(** X3. Every ready run announces the three steps once each and in order,
    whatever the service answers. *)
Theorem steps_announced_in_order (w : world) (url key schema_sql seed_sql : string) :
  ready w url key schema_sql seed_sql →
  lines_with_prefix "STEP " (snd (run w)) =
    [ "STEP 1: Creating Enhanced Database Schema";
      "STEP 2: Seeding Sample Price Data";
      "STEP 3: Verifying Database Setup" ].
Proof.
  intros Hr.
  by destruct (run_ready_observations _ _ _ _ _ Hr) as (t & -> & _ & Hs & _).
Qed.

Lemma steps_announced_in_order_witness :
  lines_with_prefix "STEP " (snd (run down_world)) =
    [ "STEP 1: Creating Enhanced Database Schema";
      "STEP 2: Seeding Sample Price Data";
      "STEP 3: Verifying Database Setup" ].
Proof.
  apply (steps_announced_in_order down_world
           "https://abc.supabase.co" "service-role-key"
           "-- scripts/001_reset_and_create_enhanced_schema.sql"
           "-- scripts/002_seed_sample_data.sql").
  split; try reflexivity; discriminate.
Defined.

(** X4. Besides printing, a ready run builds one client from the two
    variables' values, opens the schema file and then the seed file, and
    sends every request through that one client: the two scripts' text as
    read, then the count query, then (after a successful count) the
    symbols query. *)
Theorem effects_of_ready_run (w : world) (url key schema_sql seed_sql : string) :
  ready w url key schema_sql seed_sql →
  effects (snd (run w)) =
    [ CreateClient url key; OpenRead SCHEMA_PATH; OpenRead SEED_PATH;
      Execute (Client url key) (schema_rpc schema_sql);
      Execute (Client url key) (seed_rpc seed_sql);
      Execute (Client url key) count_query ] ++
    match count_response w url key schema_sql seed_sql with
    | inl _ => []
    | inr _ => [Execute (Client url key) symbols_query]
    end.
Proof.
  intros Hr.
  by destruct (run_ready_observations _ _ _ _ _ Hr) as (t & -> & He & _).
Qed.

Lemma effects_of_ready_run_witness :
  effects (snd (run happy_world)) =
    [ CreateClient "https://abc.supabase.co" "service-role-key";
      OpenRead SCHEMA_PATH; OpenRead SEED_PATH;
      Execute (Client "https://abc.supabase.co" "service-role-key")
        (schema_rpc "-- scripts/001_reset_and_create_enhanced_schema.sql");
      Execute (Client "https://abc.supabase.co" "service-role-key")
        (seed_rpc "-- scripts/002_seed_sample_data.sql");
      Execute (Client "https://abc.supabase.co" "service-role-key") count_query;
      Execute (Client "https://abc.supabase.co" "service-role-key") symbols_query ].
Proof.
  apply (effects_of_ready_run happy_world
           "https://abc.supabase.co" "service-role-key"
           "-- scripts/001_reset_and_create_enhanced_schema.sql"
           "-- scripts/002_seed_sample_data.sql").
  split; try reflexivity; discriminate.
Defined.

(** X5. The client is built before the scripts are read, and the seed
    file is opened only after the schema file was read: when the schema
    file cannot be read the run has built the client and opened that one
    file; when only the seed file cannot be read it has opened both. *)
Theorem effects_of_read_error (w : world) (url key : string) (e : pyexn) :
  environ w !! "SUPABASE_URL" = Some url → url ≠ "" →
  environ w !! "SUPABASE_SERVICE_ROLE_KEY" = Some key → key ≠ "" →
  (read_text w SCHEMA_PATH = inl e →
     effects (snd (run w)) = [CreateClient url key; OpenRead SCHEMA_PATH]) ∧
  (∀ schema_sql,
     read_text w SCHEMA_PATH = inr schema_sql → read_text w SEED_PATH = inl e →
     effects (snd (run w)) =
       [CreateClient url key; OpenRead SCHEMA_PATH; OpenRead SEED_PATH]).
Proof.
  intros Hu Hune Hk Hkne.
  rewrite (run_present w url key) by done.
  cbv [load_scripts open_read print emit ask of_result raise
       mbind M_bind mret M_ret app].
  split.
  - intros ->. reflexivity.
  - intros schema_sql -> ->. reflexivity.
Qed.

Lemma effects_of_read_error_witness :
  effects (snd (run no_schema_world)) =
    [ CreateClient "https://abc.supabase.co" "service-role-key";
      OpenRead SCHEMA_PATH ] ∧
  effects (snd (run no_seed_world)) =
    [ CreateClient "https://abc.supabase.co" "service-role-key";
      OpenRead SCHEMA_PATH; OpenRead SEED_PATH ].
Proof.
  split.
  - apply (proj1 (effects_of_read_error no_schema_world
              "https://abc.supabase.co" "service-role-key"
              (PyExn "FileNotFoundError"
                 "[Errno 2] No such file or directory: 'scripts/001_reset_and_create_enhanced_schema.sql'")
              eq_refl ltac:(discriminate) eq_refl ltac:(discriminate))).
    reflexivity.
  - apply (proj2 (effects_of_read_error no_seed_world
              "https://abc.supabase.co" "service-role-key"
              (PyExn "FileNotFoundError" "[Errno 2] No such file or directory")
              eq_refl ltac:(discriminate) eq_refl ltac:(discriminate))
              "-- scripts/001_reset_and_create_enhanced_schema.sql");
      reflexivity.
Defined.

(** X6. When the count query is answered and the verification step fails
    afterwards (the symbols query raises, or a row has no symbol), the
    step has already printed its connection line and the count line: the
    failure lines come after them, and the banner follows. *)
Theorem verification_fails_after_count (w : world)
    (url key schema_sql seed_sql : string) (r3 : api_response) (e : pyexn) :
  ready w url key schema_sql seed_sql →
  count_response w url key schema_sql seed_sql = inr r3 →
  symbols_response w url key schema_sql seed_sql = inl e ∨
  (∃ r4, symbols_response w url key schema_sql seed_sql = inr r4 ∧
         set_of_column "symbol" (data r4) = inl e) →
  ([ nl +:+ "✓ Database connection successful!";
     "✓ Found " +:+ str_count (count r3) +:+ " price history records";
     nl +:+ "✗ Verification failed: " +:+ exn_str e;
     nl +:+ "Please ensure the SQL scripts have been executed in Supabase." ]
   ++ closing_banner) `suffix_of` stdout (snd (run w)) ∧
  lines_with_prefix "✓ Available symbols" (snd (run w)) = [].
Proof.
  intros Hr Hcount Hfail. rewrite (run_ready _ _ _ _ _ Hr).
  unfold_responses. exec.
  destruct Hfail as [He|(r4 & Hr4 & He)].
  all: repeat step_service; simplify_eq.
  all: try (rewrite He; exec).
  all: opaque_data; cbn [snd]; split; [by_suffix|vm_compute; reflexivity].
Qed.

Lemma verification_fails_after_count_witness :
  ([ nl +:+ "✓ Database connection successful!";
     "✓ Found 7 price history records";
     nl +:+ "✗ Verification failed: statement timeout";
     nl +:+ "Please ensure the SQL scripts have been executed in Supabase." ]
   ++ closing_banner) `suffix_of` stdout (snd (run symbols_refused_world)).
Proof.
  apply (verification_fails_after_count symbols_refused_world
           "https://abc.supabase.co" "service-role-key"
           "-- scripts/001_reset_and_create_enhanced_schema.sql"
           "-- scripts/002_seed_sample_data.sql"
           (ApiResponse [] (Some 7%Z)) (PyExn "APIError" "statement timeout")).
  - split; try reflexivity; discriminate.
  - reflexivity.
  - left. reflexivity.
Defined.

(** X7. Collecting a column of the rows into a set succeeds exactly when
    every row has the column, and the set then holds exactly the values
    found in the rows; otherwise the result is the KeyError of the missing
    key, and some row lacks it. *)
Theorem set_of_column_spec (key : string) (rows : list row) :
  match set_of_column key rows with
  | inr s =>
      Forall (λ r, is_Some (r !! key)) rows ∧
      ∀ v, v ∈ s ↔ ∃ r, r ∈ rows ∧ r !! key = Some v
  | inl e =>
      e = PyExn "KeyError" ("'" +:+ key +:+ "'") ∧
      ∃ r, r ∈ rows ∧ r !! key = None
  end.
Proof.
  induction rows as [|r0 rows IH]; cbn [set_of_column].
  - split; [constructor|]. intros v. split.
    + intros Hv. by apply elem_of_empty in Hv.
    + intros (r & Hr & _). by apply elem_of_nil in Hr.
  - unfold getitem. destruct (r0 !! key) as [v0|] eqn:Hr0.
    + destruct (set_of_column key rows) as [e|s].
      * destruct IH as (-> & r & Hin & Hr). split; [done|].
        exists r. split; [by apply elem_of_cons; right|done].
      * destruct IH as (Hall & Hmem). split; [by constructor|].
        intros v. rewrite elem_of_union, elem_of_singleton, Hmem. split.
        -- intros [->|(r & Hin & Hr)].
           ++ exists r0. split; [by apply elem_of_cons; left|done].
           ++ exists r. split; [by apply elem_of_cons; right|done].
        -- intros (r & Hin & Hr). apply elem_of_cons in Hin as [->|Hin].
           ++ left. congruence.
           ++ right. by exists r.
    + split; [done|]. exists r0. split; [by apply elem_of_cons; left|done].
Qed.

(** X8. The order in which the set hands out its members does not show
    in the output: sorting any enumeration of the set gives the list that
    [sorted] returns. *)
Theorem sorted_ignores_iteration_order (s : gset string) (l : list string) :
  l ≡ₚ elements s → merge_sort String.le l = sorted s.
Proof. apply sorted_any_order. Qed.

Lemma sorted_ignores_iteration_order_witness :
  merge_sort String.le ["ETH"; "SOL"; "BTC"] =
  sorted (list_to_set ["SOL"; "BTC"; "ETH"]).
Proof.
  apply (sorted_ignores_iteration_order (list_to_set ["SOL"; "BTC"; "ETH"])
           ["ETH"; "SOL"; "BTC"]).
  change (elements (list_to_set (C:=gset string) ["SOL"; "BTC"; "ETH"]))
    with ["SOL"; "ETH"; "BTC"].
  apply perm_swap.
Defined.

(** X9. The run ends in one of three ways, decided before any request is
    sent: it returns normally (status 0) exactly when both variables are
    set and non-empty and both files can be read; otherwise the status
    is 1. *)
Theorem exit_status_characterised (w : world) :
  (exit_status (fst (run w)) = 0%Z ∨ exit_status (fst (run w)) = 1%Z) ∧
  (exit_status (fst (run w)) = 0%Z ↔
     ∃ url key schema_sql seed_sql, ready w url key schema_sql seed_sql) ∧
  (fst (run w) = Ret () ↔ exit_status (fst (run w)) = 0%Z).
Proof.
  destruct (credentials_cases w) as [Hm|(url & key & Hu & Hune & Hk & Hkne)].
  - rewrite (run_missing w Hm). cbn [fst exit_status].
    split; [by right|]. split; [|done]. split; [done|].
    intros (url & key & s1 & s2 & [Hu Hune Hk Hkne _ _]). exfalso.
    destruct Hm as [[?|?]|[?|?]]; congruence.
  - destruct (read_text w SCHEMA_PATH) as [e|schema_sql] eqn:Hs1;
      [|destruct (read_text w SEED_PATH) as [e|seed_sql] eqn:Hs2].
    + destruct (run_read_error w url key e) as (t & -> & _); [by auto..|].
      cbn [fst exit_status]. split; [by right|]. split; [|done]. split; [done|].
      intros (? & ? & ? & ? & [_ _ _ _ Hs _]). congruence.
    + destruct (run_read_error w url key e) as (t & -> & _); [by eauto..|].
      cbn [fst exit_status]. split; [by right|]. split; [|done]. split; [done|].
      intros (? & ? & ? & ? & [_ _ _ _ _ Hs]). congruence.
    + assert (ready w url key schema_sql seed_sql) as Hr by done.
      destruct (run_ready_trace _ _ _ _ _ Hr) as (t & -> & _).
      cbn [fst exit_status]. split; [by left|]. split; [|done]. split; [|done].
      intros _. by exists url, key, schema_sql, seed_sql.
Qed.

(** X10. When the symbols query returns no rows, the symbols line is
    printed with an empty list. *)
Theorem empty_table_symbols_line (w : world) (url key schema_sql seed_sql : string)
    (d : list row) (cnt c : option Z) :
  ready w url key schema_sql seed_sql →
  count_response w url key schema_sql seed_sql = inr (ApiResponse d cnt) →
  symbols_response w url key schema_sql seed_sql = inr (ApiResponse [] c) →
  lines_with_prefix "✓ Available symbols" (snd (run w)) = ["✓ Available symbols: "].
Proof.
  intros Hr Hcount Hsyms.
  destruct (run_verified _ _ _ _ _ _ _ _ _ [] Hr Hcount Hsyms)
    as (t & -> & _ & Hl); [constructor|].
  exact Hl.
Qed.

Lemma empty_table_symbols_line_witness :
  lines_with_prefix "✓ Available symbols" (snd (run empty_table_world)) =
    ["✓ Available symbols: "].
Proof.
  apply (empty_table_symbols_line empty_table_world
           "https://abc.supabase.co" "service-role-key"
           "-- scripts/001_reset_and_create_enhanced_schema.sql"
           "-- scripts/002_seed_sample_data.sql" [] (Some 0%Z) None).
  - split; try reflexivity; discriminate.
  - reflexivity.
  - reflexivity.
Defined.



(** X12. The missing-credentials error line is printed exactly when the
    credential check fails: no other run prints it, whatever the files
    hold and the service answers. *)
Theorem credentials_error_iff_missing (w : world) :
  "ERROR: Missing Supabase credentials!" ∈ stdout (snd (run w)) ↔
  missing w "SUPABASE_URL" ∨ missing w "SUPABASE_SERVICE_ROLE_KEY".
Proof.
  split.
  - intros Hin.
    destruct (credentials_cases w) as [Hm|(url & key & Hu & Hune & Hk & Hkne)];
      [exact Hm|exfalso].
    assert (lines_with_prefix "ERROR" (snd (run w)) = []) as Hnone.
    { destruct (read_text w SCHEMA_PATH) as [e|schema_sql] eqn:Hs1;
        [|destruct (read_text w SEED_PATH) as [e|seed_sql] eqn:Hs2].
      - destruct (run_read_error w url key e) as (t & -> & _ & Ho); [by auto..|].
        unfold lines_with_prefix. cbn [snd]. by rewrite Ho.
      - destruct (run_read_error w url key e) as (t & -> & _ & Ho); [by eauto..|].
        unfold lines_with_prefix. cbn [snd]. by rewrite Ho.
      - assert (ready w url key schema_sql seed_sql) as Hr by done.
        by destruct (run_ready_observations _ _ _ _ _ Hr)
          as (t & -> & _ & _ & He & _). }
    assert ("ERROR: Missing Supabase credentials!"
              ∈ lines_with_prefix "ERROR" (snd (run w))) as Hin'.
    { apply list_elem_of_filter. split; [reflexivity|exact Hin]. }
    rewrite Hnone in Hin'. by apply elem_of_nil in Hin'.
  - intros Hm. rewrite (run_missing w Hm). cbn. apply elem_of_cons. by left.
Qed.
